(** * DeepSpeedRollingBatch: the rolling-batch adapter over the DeepSpeed engine

    A shallow embedding of
    [engines/python/setup/djl_python/rolling_batch/deepspeed_rolling_batch.py]
    and the properties of its request preprocessing, batch numbering and
    token dispatch.

    Python objects are records, the parameter mapping of a request is a
    finite map from strings to Python values, unbounded Python integers are
    [Z], and a method of the adapter is a function from the adapter's state
    to an outcome (a value or a raised exception) and the state it leaves. *)

From Stdlib Require Import ZArith String Ascii List Lia.
From Stdlib Require Import Floats.SpecFloat.
From stdpp Require Import base option list gmap strings.

Local Open Scope Z_scope.
Local Open Scope string_scope.
Local Open Scope list_scope.

(** ** Python values and the [int] builtin *)

Module Py.

(** An exception, by the name of its class. *)
Inductive exn : Type :=
| TypeError
| ValueError
| OverflowError
| Exception (name : string).

(** The outcome of evaluating a Python expression. *)
Inductive result (A : Type) : Type :=
| Ok (a : A)
| Raise (e : exn).
Arguments Ok {A} a.
Arguments Raise {A} e.

(** The values a request's parameter mapping can hold.  A float is an
    IEEE 754 binary64 number, given by its sign, mantissa and exponent. *)
#[warnings="-register-all"]
Inductive value : Type :=
| None_
| Bool (b : bool)
| Int (z : Z)
| Float (f : spec_float)
| Str (s : string)
| List (l : list value).

(** The literal [1.0]: mantissa 2^52, exponent -52. *)
Definition float_1_0 : spec_float := S754_finite false 4503599627370496 (-52).

(** A parameter mapping: [dict] with string keys. *)
Abbreviation dict := (gmap string value).

(** [d.get(key, dflt)] *)
Definition get (d : dict) (key : string) (dflt : value) : value :=
  match d !! key with
  | Some v => v
  | None => dflt
  end.

(** [int(f)] for a float: truncation towards zero; infinities and NaN
    have no integer value. *)
Definition int_of_float (f : spec_float) : result Z :=
  match f with
  | S754_zero _ => Ok 0
  | S754_infinity _ => Raise OverflowError
  | S754_nan => Raise ValueError
  | S754_finite s m e =>
      let magnitude := Z.shiftl (Z.pos m) e in
      Ok (if s then - magnitude else magnitude)
  end.

(** [int(s)] for a text [s] is Python's own and is taken as given: which
    texts it accepts (decimal digits of any script, white space around
    the numeral, a sign, underscores between digits, the limit on the
    number of digits) and what it raises for the others is not this
    file's to say. *)
Class IntOfStr : Type := int_of_str : string -> result Z.

(** The builtin [int(x)]. *)
Definition int `{!IntOfStr} (x : value) : result Z :=
  match x with
  | None_ => Raise TypeError
  | Bool b => Ok (if b then 1 else 0)
  | Int z => Ok z
  | Float f => int_of_float f
  | Str s => int_of_str s
  | List _ => Raise TypeError
  end.

(** [x is not None] *)
Definition is_not_None (x : value) : bool :=
  match x with
  | None_ => false
  | _ => true
  end.

End Py.

Import Py.

(** ** Computations of the adapter

    A method reads and updates the object it is called on and either
    returns or raises; the updates made before an exception stay. *)

Definition M (S A : Type) : Type := S -> result A * S.

Definition ret {S A : Type} (a : A) : M S A := fun s => (Ok a, s).

Definition bind {S A B : Type} (c : M S A) (k : A -> M S B) : M S B :=
  fun s =>
    match c s with
    | (Ok a, s') => k a s'
    | (Raise e, s') => (Raise e, s')
    end.

Notation "x <- c ;; k" := (bind c (fun x => k))
  (at level 100, c at next level, right associativity).
Notation "c ;;; k" := (bind c (fun _ => k))
  (at level 100, right associativity).

(** ** The engine's request, batch and generation types *)

(** [deepspeed.external.lmi_dist.utils]: plain holders of what they are
    constructed with. *)
Module lmi_dist.

Record NextTokenChooserParameters : Type := {
  temperature : value;
  repetition_penalty : value;
  top_k : value;
  top_p : value;
  typical_p : value;
  do_sample : value;
  seed : Z
}.

Record StoppingCriteriaParameters : Type := {
  stop_sequences : value;
  max_new_tokens : value
}.

(** [truncate] is an attribute the adapter sets after construction: [None]
    when it was not set. *)
Record Request : Type := {
  id : Z;
  inputs : string;
  parameters : NextTokenChooserParameters;
  stopping_parameters : StoppingCriteriaParameters;
  truncate : option value
}.

Record Batch : Type := {
  batch_id : Z;
  requests : list Request;
  size : nat
}.

(** A [Generation], with the fields the adapter reads. *)
Record Generation : Type := {
  request_id : Z;
  token_text : string;
  token_is_special : bool;
  generated_text : option string
}.

End lmi_dist.

Abbreviation Batch := lmi_dist.Batch.
Abbreviation Generation := lmi_dist.Generation.

(** The engine, [DeepSpeedRollingBatchGeneration], is a collaborator: its
    state is of some type [E] and its three operations are what the adapter
    calls.  [prefill_batch] gives the generations and the ids of the
    requests that failed; [rolling_batch_clear] is [rolling_batch.clear()]
    on the engine's own batch table. *)
Class DeepSpeedRollingBatchGeneration (E : Type) : Type := {
  prefill_batch : Batch -> M E (list Generation * list Z);
  generate_token : M E (list Generation);
  rolling_batch_clear : E -> E
}.

(** ** The base abstraction's request and operations
    ([djl_python.rolling_batch.rolling_batch]) *)

(** One call [set_next_token(text, output_formatter, last_token=...)]. *)
Record NextToken (F : Type) : Type := {
  text : string;
  formatter : F;
  last_token : bool
}.
Arguments text {F} _.
Arguments formatter {F} _.
Arguments last_token {F} _.

(** Modelled from the spec: the request record of the base abstraction,
    which is outside this file.  It holds an id, the input text and the
    parameter mapping; [output] is its output stream, one entry for each
    token it was given, and [failed] says that it is in the terminal error
    state. *)
Record ActiveRequest (F : Type) : Type := {
  id : Z;
  input_text : string;
  parameters : dict;
  output : list (NextToken F);
  failed : bool
}.
Arguments id {F} _.
Arguments input_text {F} _.
Arguments parameters {F} _.
Arguments output {F} _.
Arguments failed {F} _.

(** Modelled from the spec: [set_next_token], a method of the request
    record, appends to the request's output stream. *)
Definition set_next_token {F : Type} (token : NextToken F)
    (request : ActiveRequest F) : ActiveRequest F :=
  {| id := id request;
     input_text := input_text request;
     parameters := parameters request;
     output := output request ++ [token];
     failed := failed request |}.

(** Modelled from the spec: the terminal error state the wrapper of
    [inference] puts a request in. *)
Definition fail {F : Type} (request : ActiveRequest F) : ActiveRequest F :=
  {| id := id request;
     input_text := input_text request;
     parameters := parameters request;
     output := output request;
     failed := true |}.

(** The operations of the base class that [inference] delegates to work on
    the collection of active requests; what they compute is not this
    file's.  [error_results] is the payload the serving loop gets for a
    cycle that failed. *)
Class RollingBatch (F Response : Type) : Type := {
  get_new_requests :
    list string -> list dict -> nat ->
    M (list (ActiveRequest F)) (list (ActiveRequest F));
  postprocess_results : M (list (ActiveRequest F)) Response;
  error_results : list (ActiveRequest F) -> Response
}.

(** ** The adapter *)

(** The state of a [DeepSpeedRollingBatch]: the engine, the batch counter,
    and of the base class the active requests and the output formatter.
    [error_requests] is [None] until it is first assigned.  [calls] is the
    history of the [set_next_token] calls made so far, oldest first, each
    with the id of the request it was made on; no code reads it. *)
Record DeepSpeedRollingBatch (E F : Type) : Type := {
  rolling_batch : E;
  batch_id_counter : Z;
  active_requests : list (ActiveRequest F);
  output_formatter : F;
  error_requests : option (list Z);
  calls : list (Z * NextToken F)
}.
Arguments rolling_batch {E F} _.
Arguments batch_id_counter {E F} _.
Arguments active_requests {E F} _.
Arguments output_formatter {E F} _.
Arguments error_requests {E F} _.
Arguments calls {E F} _.

Section Adapter.

Context {text_int : IntOfStr} {E F Response : Type}.
Context `{!DeepSpeedRollingBatchGeneration E} `{!RollingBatch F Response}.

Abbreviation Self := (DeepSpeedRollingBatch E F).

Definition set_rolling_batch (engine : E) (self : Self) : Self :=
  {| rolling_batch := engine;
     batch_id_counter := batch_id_counter self;
     active_requests := active_requests self;
     output_formatter := output_formatter self;
     error_requests := error_requests self;
     calls := calls self |}.

Definition set_batch_id_counter (n : Z) (self : Self) : Self :=
  {| rolling_batch := rolling_batch self;
     batch_id_counter := n;
     active_requests := active_requests self;
     output_formatter := output_formatter self;
     error_requests := error_requests self;
     calls := calls self |}.

Definition set_active_requests (l : list (ActiveRequest F)) (self : Self)
    : Self :=
  {| rolling_batch := rolling_batch self;
     batch_id_counter := batch_id_counter self;
     active_requests := l;
     output_formatter := output_formatter self;
     error_requests := error_requests self;
     calls := calls self |}.

Definition set_error_requests (ids : list Z) (self : Self) : Self :=
  {| rolling_batch := rolling_batch self;
     batch_id_counter := batch_id_counter self;
     active_requests := active_requests self;
     output_formatter := output_formatter self;
     error_requests := Some ids;
     calls := calls self |}.

Definition record_calls (made : list (Z * NextToken F)) (self : Self)
    : Self :=
  {| rolling_batch := rolling_batch self;
     batch_id_counter := batch_id_counter self;
     active_requests := active_requests self;
     output_formatter := output_formatter self;
     error_requests := error_requests self;
     calls := calls self ++ made |}.

(** A call of an engine operation, on the adapter's [rolling_batch]. *)
Definition on_engine {A : Type} (op : M E A) : M Self A :=
  fun self =>
    let '(r, engine) := op (rolling_batch self) in
    (r, set_rolling_batch engine self).

(** A call of a base-class operation, on the active requests. *)
Definition on_base {A : Type} (op : M (list (ActiveRequest F)) A)
    : M Self A :=
  fun self =>
    let '(r, active) := op (active_requests self) in
    (r, set_active_requests active self).

(** [__init__]: the counter starts at 0; the base class starts with no
    active request. *)
Definition init (model : E) (fmt : F) : Self :=
  {| rolling_batch := model;
     batch_id_counter := 0;
     active_requests := [];
     output_formatter := fmt;
     error_requests := None;
     calls := [] |}.

(** [reset]: clears the engine's batch table, sets the counter to 0, then
    the base class's reset, which (modelled from the spec) clears the
    active-request bookkeeping. *)
Definition reset : M Self unit :=
  fun self =>
    (Ok tt,
     set_active_requests []
       (set_batch_id_counter 0
          (set_rolling_batch (rolling_batch_clear (rolling_batch self))
             self))).

(** *** preprocess_requests *)

(** The sampling parameters of one request (lines 101-108). *)
Definition next_token_chooser_parameters (param : dict)
    : result lmi_dist.NextTokenChooserParameters :=
  match Py.int (Py.get param "seed" (Int 0)) with
  | Ok seed =>
      Ok {| lmi_dist.temperature := Py.get param "temperature" (Float float_1_0);
            lmi_dist.repetition_penalty :=
              Py.get param "repetition_penalty" (Float float_1_0);
            lmi_dist.top_k := Py.get param "top_k" (Int 0);
            lmi_dist.top_p := Py.get param "top_p" (Float float_1_0);
            lmi_dist.typical_p := Py.get param "typical_p" (Float float_1_0);
            lmi_dist.do_sample := Py.get param "do_sample" (Bool false);
            lmi_dist.seed := seed |}
  | Raise e => Raise e
  end.

(** The stopping parameters of one request (lines 109-111). *)
Definition stopping_criteria_parameters (param : dict)
    : lmi_dist.StoppingCriteriaParameters :=
  {| lmi_dist.stop_sequences := Py.get param "stop_sequences" (List []);
     lmi_dist.max_new_tokens := Py.get param "max_new_tokens" (Int 30) |}.

(** The body of the loop, lines 100-119: the engine's request for [r]. *)
Definition native_request (r : ActiveRequest F) : result lmi_dist.Request :=
  let param := parameters r in
  match next_token_chooser_parameters param with
  | Ok parameters =>
      let stop_parameters := stopping_criteria_parameters param in
      let truncate := Py.get param "truncate" None_ in
      Ok {| lmi_dist.id := id r;
            lmi_dist.inputs := input_text r;
            lmi_dist.parameters := parameters;
            lmi_dist.stopping_parameters := stop_parameters;
            lmi_dist.truncate :=
              if is_not_None truncate then Some truncate else None |}
  | Raise e => Raise e
  end.

(** The loop of lines 99-120, appending to [preprocessed_requests]. *)
Fixpoint preprocess_loop (requests : list (ActiveRequest F))
    (preprocessed_requests : list lmi_dist.Request)
    : result (list lmi_dist.Request) :=
  match requests with
  | [] => Ok preprocessed_requests
  | r :: rest =>
      match native_request r with
      | Ok request => preprocess_loop rest (preprocessed_requests ++ [request])
      | Raise e => Raise e
      end
  end.

(** [preprocess_requests]: a batch numbered with the counter when the list
    of engine requests is not empty, [None] otherwise. *)
Definition preprocess_requests (requests : list (ActiveRequest F))
    : M Self (option Batch) :=
  fun self =>
    match preprocess_loop requests [] with
    | Raise e => (Raise e, self)
    | Ok [] => (Ok None, self)
    | Ok preprocessed_requests =>
        let batch :=
          {| lmi_dist.batch_id := batch_id_counter self;
             lmi_dist.requests := preprocessed_requests;
             lmi_dist.size := length preprocessed_requests |} in
        (Ok (Some batch),
         set_batch_id_counter (batch_id_counter self + 1) self)
    end.

(** *** _prefill_and_decode *)

(** Lines 79-95: the token the request is given in this cycle.  The
    generation is the first of those with the request's id, if any. *)
Definition next_token (generations : list Generation) (fmt : F)
    (request : ActiveRequest F) : NextToken F :=
  let filtered_gens :=
    filter (fun g => lmi_dist.request_id g = id request) generations in
  let generation :=
    match filtered_gens with
    | g :: _ => Some g
    | [] => None
    end in
  match generation with
  | Some generation =>
      let is_last_token := bool_decide (lmi_dist.generated_text generation <> None) in
      {| text := if lmi_dist.token_is_special generation then ""
                 else lmi_dist.token_text generation;
         formatter := fmt;
         last_token := is_last_token |}
  | None =>
      {| text := ""; formatter := fmt; last_token := false |}
  end.

(** The loop of lines 78-95 over the active requests: the requests after
    their [set_next_token], and the calls made, in the order made. *)
Fixpoint for_active_requests (generations : list Generation) (fmt : F)
    (active : list (ActiveRequest F))
    : list (ActiveRequest F) * list (Z * NextToken F) :=
  match active with
  | [] => ([], [])
  | request :: rest =>
      let token := next_token generations fmt request in
      let '(rest', made) := for_active_requests generations fmt rest in
      (set_next_token token request :: rest', (id request, token) :: made)
  end.

(** Lines 78-95 on the adapter. *)
Definition dispatch (generations : list Generation) : M Self unit :=
  fun self =>
    let '(active, made) :=
      for_active_requests generations (output_formatter self)
        (active_requests self) in
    (Ok tt, record_calls made (set_active_requests active self)).

(** Lines 71-77: the generations of the cycle, from a prefill of the new
    batch when there is one (a batch object is true, [None] is false), from
    a decode step otherwise.  Only the prefill assigns [error_requests]. *)
Definition cycle_generations (new_batch : option Batch)
    : M Self (list Generation) :=
  match new_batch with
  | Some batch =>
      r <- on_engine (prefill_batch batch) ;;
      let '(generations, error_requests) := r in
      (fun self => (Ok generations, set_error_requests error_requests self))
  | None => on_engine generate_token
  end.

Definition _prefill_and_decode (new_batch : option Batch) : M Self unit :=
  generations <- cycle_generations new_batch ;;
  dispatch generations.

(** *** inference *)

(** The body of [inference], lines 63-68. *)
Definition inference_body (input_data : list string) (parameters : list dict)
    : M Self Response :=
  new_requests <-
    on_base (get_new_requests input_data parameters (length input_data)) ;;
  new_batch <- preprocess_requests new_requests ;;
  (fun self =>
     if bool_decide (new_batch <> None)
        || bool_decide (0 < length (active_requests self))%nat
     then _prefill_and_decode new_batch self
     else ret tt self) ;;;
  on_base postprocess_results.

(** Modelled from the spec: the decorator [stop_on_any_exception] of the
    base abstraction, which is outside this file.  An exception of the
    wrapped method does not go further: every request active at that
    moment is put in the terminal error state. *)
Definition stop_on_any_exception
    (func : list string -> list dict -> M Self Response)
    (input_data : list string) (parameters : list dict) : M Self Response :=
  fun self =>
    match func input_data parameters self with
    | (Ok response, self') => (Ok response, self')
    | (Raise _, self') =>
        let active := map fail (active_requests self') in
        (Ok (error_results active), set_active_requests active self')
    end.

(** [inference], as decorated on line 54. *)
Definition inference : list string -> list dict -> M Self Response :=
  stop_on_any_exception inference_body.

End Adapter.

(** ** Drivers and stand-ins *)

Section Drivers.

Context {text_int : IntOfStr} {E F : Type}.

(** Successive calls of [preprocess_requests], one for each list of
    requests, each on the state the one before left; an exception ends one
    call, not the sequence. *)
Fixpoint preprocess_calls (calls_ : list (list (ActiveRequest F)))
    (self : DeepSpeedRollingBatch E F)
    : list (result (option Batch)) * DeepSpeedRollingBatch E F :=
  match calls_ with
  | [] => ([], self)
  | requests :: rest =>
      let '(out, self1) := preprocess_requests requests self in
      let '(outs, self2) := preprocess_calls rest self1 in
      (out :: outs, self2)
  end.

(** The ids of the batches among the outcomes of a sequence of calls. *)
Fixpoint batch_ids (outs : list (result (option Batch))) : list Z :=
  match outs with
  | [] => []
  | Ok (Some batch) :: rest => lmi_dist.batch_id batch :: batch_ids rest
  | _ :: rest => batch_ids rest
  end.

End Drivers.

(** The seed of a request, when given, is one [int] accepts. *)
Definition seed_ok `{!IntOfStr} {F : Type} (r : ActiveRequest F) : Prop :=
  exists z : Z, Py.int (Py.get (parameters r) "seed" (Int 0)) = Ok z.

(** A stand-in engine: it answers a prefill and a decode step with what it
    was set up with and keeps no state of its own. *)
Record StubEngine : Type := {
  on_prefill : result (list Generation * list Z);
  on_decode : result (list Generation)
}.

#[export] Instance stub_engine : DeepSpeedRollingBatchGeneration StubEngine := {
  prefill_batch := fun _ engine => (on_prefill engine, engine);
  generate_token := fun engine => (on_decode engine, engine);
  rolling_batch_clear := fun engine => engine
}.

(** A stand-in base class: the inputs beyond the number of active requests
    become new requests, numbered by their position; the results are the
    output streams by request id. *)
Fixpoint stub_new_requests (next : nat) (input_data : list string)
    (parameters_ : list dict) : list (ActiveRequest unit) :=
  match input_data, parameters_ with
  | data :: input_data', param :: parameters' =>
      {| id := Z.of_nat next; input_text := data; parameters := param;
         output := []; failed := false |}
      :: stub_new_requests (S next) input_data' parameters'
  | _, _ => []
  end.

Definition stub_results (active : list (ActiveRequest unit))
    : list (Z * list string * bool) :=
  map (fun r => (id r, map text (output r), failed r)) active.

#[export] Instance stub_base
    : RollingBatch unit (list (Z * list string * bool)) := {
  get_new_requests := fun input_data parameters_ batch_size active =>
    let n := length active in
    let new_requests :=
      stub_new_requests n (drop n (take batch_size input_data))
        (drop n parameters_) in
    (Ok new_requests, active ++ new_requests);
  postprocess_results := fun active => (Ok (stub_results active), active);
  error_results := stub_results
}.

(** ** Sample data *)

(** A stand-in for the conversion of text, for the sample data: none of
    the sample seeds is a text, so it is never asked. *)
Definition no_text : IntOfStr := fun _ => Raise ValueError.

(** A parameter mapping with a seed, a truncate length and a top_k. *)
Definition sample_param : dict :=
  <["seed" := Int 42]> (<["truncate" := Int 5]> (<["top_k" := Int 3]> ∅)).

(** Two requests, with the ids 0 and 1; the first has no parameters. *)
Definition sample_requests : list (ActiveRequest unit) :=
  stub_new_requests 0 ["a"; "b"] [∅; sample_param].

(** Two generations for the request 0: a plain token, then a special one
    that ends the text. *)
Definition sample_generation : Generation :=
  {| lmi_dist.request_id := 0;
     lmi_dist.token_text := "hi";
     lmi_dist.token_is_special := false;
     lmi_dist.generated_text := None |}.

Definition sample_duplicate : Generation :=
  {| lmi_dist.request_id := 0;
     lmi_dist.token_text := "</s>";
     lmi_dist.token_is_special := true;
     lmi_dist.generated_text := Some "hi" |}.

Definition sample_engine : StubEngine :=
  {| on_prefill := Ok ([sample_generation; sample_duplicate], [7]);
     on_decode := Ok [sample_generation; sample_duplicate] |}.

(** An engine whose prefill raises. *)
Definition failing_engine : StubEngine :=
  {| on_prefill := Raise (Exception "RuntimeError");
     on_decode := Ok [] |}.

(** An adapter in which the two sample requests are active. *)
Definition sample_adapter (engine : StubEngine)
    : DeepSpeedRollingBatch StubEngine unit :=
  set_active_requests sample_requests (init engine tt).

(** A request whose seed is the float NaN, and one whose seed is
    [None]. *)
Definition bad_seed_request : ActiveRequest unit :=
  {| id := 2; input_text := "c";
     parameters := <["seed" := Float S754_nan]> ∅;
     output := []; failed := false |}.

Definition null_seed_request : ActiveRequest unit :=
  {| id := 2; input_text := "c";
     parameters := <["seed" := None_]> ∅;
     output := []; failed := false |}.

(** An engine whose decode step raises. *)
Definition stalled_engine : StubEngine :=
  {| on_prefill := Ok ([], []);
     on_decode := Raise (Exception "RuntimeError") |}.

(** ** Properties of preprocess_requests *)

Section Preprocess.

Context {text_int : IntOfStr} {E F : Type}.

Implicit Types (r : ActiveRequest F) (q : lmi_dist.Request).
Implicit Types (requests : list (ActiveRequest F)).
Implicit Types (self : DeepSpeedRollingBatch E F).

Lemma get_lookup (param : dict) (key : string) (dflt : value) :
  Py.get param key dflt = default dflt (param !! key).
Proof. unfold Py.get. by destruct (param !! key). Qed.

(** The loop adds the engine requests to what was collected before. *)
Lemma preprocess_loop_app requests (acc : list lmi_dist.Request) :
  preprocess_loop requests acc =
  match preprocess_loop requests [] with
  | Ok made => Ok (acc ++ made)
  | Raise e => Raise e
  end.
Proof.
  revert acc. induction requests as [|r rest IH]; intros acc; simpl.
  - by rewrite app_nil_r.
  - destruct (native_request r) as [q|e]; [|done].
    rewrite (IH (acc ++ [q])), (IH [q]).
    destruct (preprocess_loop rest []); [|done].
    by rewrite <- app_assoc.
Qed.

(** The loop returns exactly when each request has an engine request, and
    then returns these, in order. *)
Lemma preprocess_loop_Ok requests (made : list lmi_dist.Request) :
  preprocess_loop requests [] = Ok made <->
  Forall2 (fun r q => native_request r = Ok q) requests made.
Proof.
  revert made. induction requests as [|r rest IH]; intros made; simpl.
  - split.
    + intros [= <-]. constructor.
    + intros H. by inversion H.
  - split.
    + destruct (native_request r) as [q|e] eqn:Hq; [|done].
      rewrite preprocess_loop_app.
      destruct (preprocess_loop rest []) as [made'|e] eqn:Hrest; [|done].
      intros [= <-]. simpl. constructor; [done|]. by apply IH.
    + intros H. inversion H as [|? q ? made' Hq Hrest]; subst.
      rewrite Hq, preprocess_loop_app. apply IH in Hrest. by rewrite Hrest.
Qed.

Lemma native_request_seed_ok r :
  seed_ok r <-> exists q, native_request r = Ok q.
Proof.
  unfold seed_ok, native_request, next_token_chooser_parameters.
  destruct (Py.int (Py.get (parameters r) "seed" (Int 0))) as [z|e].
  - split; eauto.
  - split; intros [? ?]; discriminate.
Qed.

Lemma preprocess_loop_total requests :
  Forall seed_ok requests ->
  exists made, preprocess_loop requests [] = Ok made.
Proof.
  induction 1 as [|r rest Hr _ [made IH]]; simpl.
  - by exists [].
  - apply native_request_seed_ok in Hr as [q Hq].
    rewrite Hq, preprocess_loop_app, IH. eauto.
Qed.

(** An empty list of requests: no batch, and the adapter is as before. *)
Lemma preprocess_requests_nil self :
  preprocess_requests [] self = (Ok None, self).
Proof. reflexivity. Qed.

(** A list of requests with acceptable seeds that is not empty: a batch of
    their engine requests with the counter as id, and the counter is one
    more. *)
Lemma preprocess_requests_batch requests self :
  requests <> [] -> Forall seed_ok requests ->
  exists made,
    Forall2 (fun r q => native_request r = Ok q) requests made /\
    preprocess_requests requests self =
    (Ok (Some {| lmi_dist.batch_id := batch_id_counter self;
                 lmi_dist.requests := made;
                 lmi_dist.size := length made |}),
     set_batch_id_counter (batch_id_counter self + 1) self).
Proof.
  intros Hne Hok.
  destruct (preprocess_loop_total requests Hok) as [made Hmade].
  exists made. pose proof Hmade as H2. apply preprocess_loop_Ok in H2.
  split; [done|].
  unfold preprocess_requests. rewrite Hmade.
  destruct made as [|q made']; [|done].
  inversion H2; subst. done.
Qed.

(** What a call can do: return a batch, return [None], or raise. *)
Lemma preprocess_requests_cases requests self :
  match preprocess_requests requests self with
  | (Ok (Some batch), self') =>
      requests <> [] /\
      Forall2 (fun r q => native_request r = Ok q)
        requests (lmi_dist.requests batch) /\
      lmi_dist.batch_id batch = batch_id_counter self /\
      lmi_dist.size batch = length (lmi_dist.requests batch) /\
      self' = set_batch_id_counter (batch_id_counter self + 1) self
  | (Ok None, self') => requests = [] /\ self' = self
  | (Raise _, self') => requests <> [] /\ self' = self
  end.
Proof.
  unfold preprocess_requests.
  destruct (preprocess_loop requests []) as [made|e] eqn:Hloop.
  - apply preprocess_loop_Ok in Hloop.
    destruct made as [|q made'].
    + inversion Hloop; subst. done.
    + simpl. split_and!; try done. intros ->. inversion Hloop.
  - split; [|done]. intros ->. discriminate.
Qed.

End Preprocess.

Section PreprocessClaims.

Context {text_int : IntOfStr} {E F : Type}.

Implicit Types (r : ActiveRequest F) (q : lmi_dist.Request).
Implicit Types (requests : list (ActiveRequest F)).
Implicit Types (self : DeepSpeedRollingBatch E F).


(** The rest of an engine request: id, text, stopping parameters and the
    [truncate] attribute. *)
Lemma native_request_fields r q :
  native_request r = Ok q ->
  lmi_dist.id q = id r /\
  lmi_dist.inputs q = input_text r /\
  next_token_chooser_parameters (parameters r) = Ok (lmi_dist.parameters q) /\
  lmi_dist.stopping_parameters q
    = stopping_criteria_parameters (parameters r) /\
  lmi_dist.truncate q =
    match parameters r !! "truncate" with
    | Some None_ | None => None
    | Some v => Some v
    end.
Proof.
  unfold native_request.
  destruct (next_token_chooser_parameters (parameters r)) as [p|e]; [|done].
  intros [= <-]. simpl. split_and!; try done.
  rewrite get_lookup.
  destruct (parameters r !! "truncate") as [[]|]; done.
Qed.


(** C3: an empty list of requests gives [None] and leaves the adapter as
    it was; a call that gives a batch was given at least one request, and
    the batch has as many engine requests as the call had requests, so
    never none; [None] is given for the empty list only. *)
Theorem preprocess_requests_no_empty_batch requests self :
  preprocess_requests [] self = (Ok None, self) /\
  match preprocess_requests requests self with
  | (Ok (Some batch), _) =>
      requests <> [] /\
      lmi_dist.requests batch <> [] /\
      length (lmi_dist.requests batch) = length requests /\
      lmi_dist.size batch = length requests /\
      (0 < lmi_dist.size batch)%nat
  | (Ok None, _) => requests = []
  | (Raise _, _) => requests <> []
  end.
Proof.
  split; [reflexivity|].
  pose proof (preprocess_requests_cases requests self) as H.
  destruct (preprocess_requests requests self) as [[[batch|]|e] self'].
  - destruct H as (Hne & Hmade & _ & Hsize & _).
    apply Forall2_length in Hmade.
    assert (length requests <> 0%nat) by (by destruct requests).
    split_and!; try done; try lia.
    intros Hnil. rewrite Hnil in Hmade. simpl in Hmade. lia.
  - by destruct H.
  - by destruct H.
Qed.


End PreprocessClaims.

Section Counter.

Context {text_int : IntOfStr} {E F : Type} `{!DeepSpeedRollingBatchGeneration E}.

Implicit Types (requests : list (ActiveRequest F)).
Implicit Types (self : DeepSpeedRollingBatch E F).

Lemma reset_counter self : batch_id_counter (snd (reset self)) = 0.
Proof. reflexivity. Qed.

(** A sequence of calls on requests with acceptable seeds: the outcome of
    each call, the ids of the batches, and the counter at the end. *)
Lemma preprocess_calls_counter (calls_ : list (list (ActiveRequest F))) self :
  Forall (Forall seed_ok) calls_ ->
  let n := length (filter (fun requests => requests <> []) calls_) in
  Forall2 (fun requests out =>
             match out with
             | Ok (Some batch) =>
                 requests <> [] /\ lmi_dist.size batch = length requests
             | Ok None => requests = []
             | Raise _ => False
             end)
    calls_ (fst (preprocess_calls calls_ self)) /\
  batch_ids (fst (preprocess_calls calls_ self))
    = map (fun k => batch_id_counter self + Z.of_nat k) (seq 0 n) /\
  batch_id_counter (snd (preprocess_calls calls_ self))
    = batch_id_counter self + Z.of_nat n.
Proof.
  intros Hok. revert self.
  induction Hok as [|requests rest Hreq _ IH]; intros self.
  - simpl. split_and!; [constructor|done|lia].
  - simpl. destruct requests as [|r rs].
    + rewrite preprocess_requests_nil.
      specialize (IH self).
      destruct (preprocess_calls rest self) as [outs self2]. simpl in *.
      rewrite filter_cons_False by (intros Hne; congruence).
      destruct IH as (Hall & Hids & Hcount).
      split_and!; [by constructor|done|done].
    + destruct (preprocess_requests_batch (r :: rs) self) as
        (made & Hmade & ->); [done|done|].
      specialize (IH (set_batch_id_counter (batch_id_counter self + 1) self)).
      destruct (preprocess_calls rest _) as [outs self2]. simpl in *.
      destruct IH as (Hall & Hids & Hcount).
      apply Forall2_length in Hmade.
      split_and!.
      * constructor; [|done]. simpl. split; [done|]. by rewrite <- Hmade.
      * simpl. rewrite Hids. f_equal; [lia|].
        rewrite <- seq_shift, map_map. apply map_ext. intros k. lia.
      * rewrite Hcount. simpl length. lia.
Qed.

(** C4: in a sequence of calls of [preprocess_requests] on requests whose
    seed, when given, is one [int] accepts, each call with a list that is
    not empty gives a batch and each call with the empty list gives
    [None]; the batches have the ids c, c+1, c+2, ... in the order of the
    calls, where c is the counter before the first call; at the end the
    counter is c plus the number of calls with a list that is not empty.
    A batch has the counter before its call as id and the call adds one
    to the counter; a call that gives no batch leaves the counter as it
    was.  After [reset] the counter is 0. *)
Theorem batch_ids_increase_by_one (calls_ : list (list (ActiveRequest F))) self :
  Forall (Forall seed_ok) calls_ ->
  let n := length (filter (fun requests => requests <> []) calls_) in
  let outs := fst (preprocess_calls calls_ self) in
  let self' := snd (preprocess_calls calls_ self) in
  Forall2 (fun requests out =>
             match out with
             | Ok (Some batch) =>
                 requests <> [] /\ lmi_dist.size batch = length requests
             | Ok None => requests = []
             | Raise _ => False
             end)
    calls_ outs /\
  batch_ids outs
    = map (fun k => batch_id_counter self + Z.of_nat k) (seq 0 n) /\
  batch_id_counter self' = batch_id_counter self + Z.of_nat n /\
  (forall requests (s : DeepSpeedRollingBatch E F),
     match preprocess_requests requests s with
     | (Ok (Some batch), s') =>
         requests <> [] /\
         lmi_dist.batch_id batch = batch_id_counter s /\
         batch_id_counter s' = batch_id_counter s + 1
     | (Ok None, s') =>
         requests = [] /\ batch_id_counter s' = batch_id_counter s
     | (Raise _, s') => batch_id_counter s' = batch_id_counter s
     end) /\
  batch_id_counter (snd (reset self')) = 0.
Proof.
  intros Hok n outs self'.
  destruct (preprocess_calls_counter calls_ self Hok) as (Hall & Hids & Hn).
  split_and!; try done.
  intros requests s.
  pose proof (preprocess_requests_cases requests s) as H.
  destruct (preprocess_requests requests s) as [[[batch|]|e] s'].
  - destruct H as (Hne & _ & Hid & _ & ->). done.
  - destruct H as [-> ->]. done.
  - destruct H as [_ ->]. done.
Qed.

End Counter.

(** ** Properties of _prefill_and_decode *)

Section Dispatch.

Context {E F : Type} `{!DeepSpeedRollingBatchGeneration E}.

Implicit Types (request : ActiveRequest F) (g : Generation).
Implicit Types (generations : list Generation) (fmt : F).
Implicit Types (self : DeepSpeedRollingBatch E F).

(** No generation has the request's id: the empty token, not the last. *)
Lemma next_token_no_match generations fmt request :
  Forall (fun g => lmi_dist.request_id g <> id request) generations ->
  next_token generations fmt request
  = {| text := ""; formatter := fmt; last_token := false |}.
Proof.
  intros Hnone. unfold next_token.
  destruct (filter _ generations) as [|g rest] eqn:Hfilter; [done|].
  assert (g ∈ filter (fun g => lmi_dist.request_id g = id request) generations)
    as Hin by (rewrite Hfilter; left).
  apply list_elem_of_filter in Hin as [Hid Hin].
  rewrite Forall_forall in Hnone. by destruct (Hnone g Hin).
Qed.

(** The generation used is the first with the request's id. *)
Lemma next_token_first_match generations fmt request before g after :
  generations = before ++ g :: after ->
  Forall (fun g' => lmi_dist.request_id g' <> id request) before ->
  lmi_dist.request_id g = id request ->
  next_token generations fmt request
  = {| text := if lmi_dist.token_is_special g then ""
               else lmi_dist.token_text g;
       formatter := fmt;
       last_token := bool_decide (lmi_dist.generated_text g <> None) |}.
Proof.
  intros -> Hbefore Hid. unfold next_token.
  rewrite filter_app, filter_cons_True by done.
  replace (filter _ before) with (@nil Generation); [done|].
  symmetry. induction Hbefore as [|g' before' Hg' _ IH]; [done|].
  by rewrite filter_cons_False.
Qed.

Lemma for_active_requests_map generations fmt (active : list (ActiveRequest F)) :
  for_active_requests generations fmt active
  = (map (fun request =>
            set_next_token (next_token generations fmt request) request)
       active,
     map (fun request => (id request, next_token generations fmt request))
       active).
Proof.
  induction active as [|request rest IH]; simpl; [done|]. by rewrite IH.
Qed.

(** Getting the generations touches neither the active requests, nor the
    formatter, nor the history of calls. *)
Lemma cycle_generations_frame new_batch self (out : result (list Generation))
    self1 :
  cycle_generations new_batch self = (out, self1) ->
  active_requests self1 = active_requests self /\
  output_formatter self1 = output_formatter self /\
  calls self1 = calls self /\
  batch_id_counter self1 = batch_id_counter self.
Proof.
  unfold cycle_generations, bind, on_engine.
  destruct new_batch as [batch|].
  - destruct (prefill_batch batch (rolling_batch self))
      as [[[generations ids]|e] engine]; intros [= <- <-]; done.
  - destruct (generate_token (rolling_batch self)) as [out' engine].
    intros [= <- <-]. done.
Qed.

(** Once the engine has given its generations, the cycle ends normally,
    with one token dispatched to each active request. *)
Lemma prefill_and_decode_Ok new_batch self generations self1 :
  cycle_generations new_batch self = (Ok generations, self1) ->
  _prefill_and_decode new_batch self
  = (Ok tt,
     record_calls
       (map (fun request =>
               (id request,
                next_token generations (output_formatter self) request))
          (active_requests self))
       (set_active_requests
          (map (fun request =>
                  set_next_token
                    (next_token generations (output_formatter self) request)
                    request)
             (active_requests self))
          self1)).
Proof.
  intros Hcycle.
  destruct (cycle_generations_frame _ _ _ _ Hcycle) as (Ha & Hf & _).
  unfold _prefill_and_decode, bind, dispatch. rewrite Hcycle.
  by rewrite for_active_requests_map, Ha, Hf.
Qed.

(** C5: in a cycle in which the engine gave its generations and none of
    them has the id of an active request, [_prefill_and_decode] ends
    normally and that request is as before but for its output stream,
    which has one more token, the last one: the empty text, with
    [last_token] false. *)
Theorem no_generation_gives_empty_token new_batch self generations self1
    (i : nat) request :
  cycle_generations new_batch self = (Ok generations, self1) ->
  active_requests self !! i = Some request ->
  Forall (fun g => lmi_dist.request_id g <> id request) generations ->
  exists self' request',
    _prefill_and_decode new_batch self = (Ok tt, self') /\
    active_requests self' !! i = Some request' /\
    id request' = id request /\
    failed request' = failed request /\
    output request'
    = output request
      ++ [{| text := ""; formatter := output_formatter self;
             last_token := false |}].
Proof.
  intros Hcycle Hi Hnone.
  eexists _, _. split; [by apply prefill_and_decode_Ok|]. simpl.
  split; [by rewrite list_lookup_fmap, Hi|]. simpl.
  by rewrite next_token_no_match.
Qed.

(** C6: in a cycle in which the engine gave its generations, an active
    request for which [g] is the first generation with its id gets one
    more token on its output stream: its text is empty when [g] is flagged
    special, whatever the token text of [g], and the token text of [g]
    otherwise; it is the last token exactly when the generated text of
    [g] is not [None]. *)
Theorem matching_generation_gives_token new_batch self generations self1
    (i : nat) request before g after :
  cycle_generations new_batch self = (Ok generations, self1) ->
  active_requests self !! i = Some request ->
  generations = before ++ g :: after ->
  Forall (fun g' => lmi_dist.request_id g' <> id request) before ->
  lmi_dist.request_id g = id request ->
  exists self' request' token,
    _prefill_and_decode new_batch self = (Ok tt, self') /\
    active_requests self' !! i = Some request' /\
    output request' = output request ++ [token] /\
    (lmi_dist.token_is_special g = true -> text token = "") /\
    (lmi_dist.token_is_special g = false ->
     text token = lmi_dist.token_text g) /\
    (last_token token = true <-> lmi_dist.generated_text g <> None).
Proof.
  intros Hcycle Hi Hgens Hbefore Hid.
  eexists _, _, _. split; [by apply prefill_and_decode_Ok|]. simpl.
  split; [by rewrite list_lookup_fmap, Hi|]. simpl.
  split; [reflexivity|].
  rewrite (next_token_first_match _ _ _ _ _ _ Hgens Hbefore Hid). simpl.
  split_and!.
  - by intros ->.
  - by intros ->.
  - by rewrite bool_decide_eq_true.
Qed.

(** C7: in a cycle in which the engine gave its generations, when two of
    them, at the positions [j1 < j2], have the id of an active request and
    none before [j1] has, the token the request gets is made from the one
    at [j1]. *)
Theorem first_matching_generation_is_used new_batch self generations self1
    (i j1 j2 : nat) request g1 g2 :
  cycle_generations new_batch self = (Ok generations, self1) ->
  active_requests self !! i = Some request ->
  generations !! j1 = Some g1 -> lmi_dist.request_id g1 = id request ->
  generations !! j2 = Some g2 -> lmi_dist.request_id g2 = id request ->
  (j1 < j2)%nat ->
  (forall k g, (k < j1)%nat -> generations !! k = Some g ->
               lmi_dist.request_id g <> id request) ->
  exists self' request',
    _prefill_and_decode new_batch self = (Ok tt, self') /\
    active_requests self' !! i = Some request' /\
    output request'
    = output request
      ++ [{| text := if lmi_dist.token_is_special g1 then ""
                     else lmi_dist.token_text g1;
             formatter := output_formatter self;
             last_token :=
               bool_decide (lmi_dist.generated_text g1 <> None) |}].
Proof.
  intros Hcycle Hi Hj1 Hid1 _ _ _ Hfirst.
  eexists _, _. split; [by apply prefill_and_decode_Ok|]. simpl.
  split; [by rewrite list_lookup_fmap, Hi|]. simpl.
  f_equal. f_equal.
  apply (next_token_first_match _ _ _ (take j1 generations) g1
           (drop (S j1) generations)); [| |done].
  - by rewrite <- (take_drop_middle _ _ _ Hj1) at 1.
  - apply Forall_lookup_2. intros k g Hk.
    apply lookup_take_Some in Hk as [Hk Hlt]. by eapply Hfirst.
Qed.

(** C10: in a cycle in which the engine gave its generations, whatever
    they are, [_prefill_and_decode] ends normally and the [set_next_token]
    calls it made are one for each active request, in the order of the
    collection: the i-th call is on the i-th request, and each request has
    exactly one more token on its output stream. *)
Theorem one_set_next_token_per_active_request new_batch self generations
    self1 :
  cycle_generations new_batch self = (Ok generations, self1) ->
  exists self' made,
    _prefill_and_decode new_batch self = (Ok tt, self') /\
    calls self' = calls self ++ made /\
    length made = length (active_requests self) /\
    (forall (i : nat) request,
       active_requests self !! i = Some request ->
       exists token request',
         made !! i = Some (id request, token) /\
         active_requests self' !! i = Some request' /\
         id request' = id request /\
         output request' = output request ++ [token]) /\
    length (active_requests self') = length (active_requests self).
Proof.
  intros Hcycle.
  destruct (cycle_generations_frame _ _ _ _ Hcycle) as (_ & _ & Hcalls & _).
  eexists _, _. split; [by apply prefill_and_decode_Ok|]. simpl.
  split; [by rewrite Hcalls|].
  split; [by rewrite length_map|].
  split; [|by rewrite length_map].
  intros i request Hi. eexists _, _.
  rewrite !list_lookup_fmap, Hi. simpl. done.
Qed.

(** C9: a cycle without a new batch leaves [error_requests] as it was,
    whatever the engine does, and so does any number of such cycles one
    after the other; a cycle with a new batch sets it to the ids the
    prefill gave, and leaves it as it was when the prefill raised. *)
Theorem error_requests_assigned_by_prefill_only (n : nat) self
    (batch : Batch) :
  error_requests (snd (_prefill_and_decode None self)) = error_requests self /\
  error_requests
    (Nat.iter n (fun s => snd (_prefill_and_decode None s)) self)
  = error_requests self /\
  error_requests (snd (_prefill_and_decode (Some batch) self))
  = match fst (prefill_batch batch (rolling_batch self)) with
    | Ok (_, ids) => Some ids
    | Raise _ => error_requests self
    end.
Proof.
  assert (forall s : DeepSpeedRollingBatch E F,
             error_requests (snd (_prefill_and_decode None s))
             = error_requests s) as Hdecode.
  { intros s. unfold _prefill_and_decode, bind, cycle_generations, on_engine,
      dispatch.
    destruct (generate_token (rolling_batch s)) as [[generations|e] engine];
      [|done].
    simpl. by destruct (for_active_requests _ _ _). }
  split_and!.
  - apply Hdecode.
  - induction n as [|n IH]; [done|]. simpl. by rewrite Hdecode.
  - cbv [_prefill_and_decode bind cycle_generations on_engine dispatch].
    destruct (prefill_batch batch (rolling_batch self))
      as [[[generations ids]|e] engine]; simpl; [|reflexivity].
    by destruct (for_active_requests _ _ _).
Qed.

End Dispatch.

(** ** Properties of inference *)

Section Inference.

Context {text_int : IntOfStr} {E F Response : Type}.
Context `{!DeepSpeedRollingBatchGeneration E} `{!RollingBatch F Response}.

Implicit Types (self : DeepSpeedRollingBatch E F).
Implicit Types (input_data : list string) (params : list dict).

(** The wrapped method returns what the body returns, and turns an
    exception of the body into the error results of the failed requests. *)
Lemma inference_cases input_data params self :
  inference input_data params self
  = match inference_body input_data params self with
    | (Ok response, s) => (Ok response, s)
    | (Raise _, s) =>
        (Ok (error_results (map fail (active_requests s))),
         set_active_requests (map fail (active_requests s)) s)
    end.
Proof. reflexivity. Qed.

(** A prefill that raises ends the body of [inference] with that
    exception, the active requests being those the base class had after
    taking in the new ones. *)
Lemma inference_body_prefill_raises input_data params self
    new_requests active batch self1 e engine :
  get_new_requests input_data params (length input_data)
    (active_requests self) = (Ok new_requests, active) ->
  preprocess_requests new_requests (set_active_requests active self)
  = (Ok (Some batch), self1) ->
  prefill_batch batch (rolling_batch self1) = (Raise e, engine) ->
  inference_body input_data params self
  = (Raise e, set_rolling_batch engine self1) /\
  active_requests self1 = active.
Proof.
  intros Hnew Hpre Hprefill.
  cbv [inference_body bind on_base]. rewrite Hnew, Hpre.
  pose proof (preprocess_requests_cases new_requests
                (set_active_requests active self)) as Hcases.
  rewrite Hpre in Hcases. destruct Hcases as (_ & _ & _ & _ & Hself1).
  split; [|by rewrite Hself1].
  rewrite bool_decide_eq_true_2 by done. simpl.
  cbv [_prefill_and_decode bind cycle_generations on_engine].
  by rewrite Hprefill.
Qed.

(** C2: [inference] never raises.  When its body returns, it returns the
    same; when its body raises, at any step and whatever the exception,
    [inference] returns normally and every request that was active when
    the exception was raised is in the terminal error state, none being
    added or dropped.  In particular, when the engine raises during the
    prefill of a new batch, the failed requests are all those the base
    class holds after taking in the new requests, the ones of earlier
    cycles as well as the ones of the batch. *)
Theorem inference_stops_on_any_exception input_data params self :
  (exists response self',
     inference input_data params self = (Ok response, self')) /\
  match inference_body input_data params self with
  | (Ok response, s) =>
      inference input_data params self = (Ok response, s)
  | (Raise _, s) =>
      exists response self',
        inference input_data params self = (Ok response, self') /\
        active_requests self' = map fail (active_requests s) /\
        Forall (fun request => failed request = true)
          (active_requests self') /\
        length (active_requests self') = length (active_requests s)
  end /\
  (forall new_requests active batch self1 e engine,
     get_new_requests input_data params (length input_data)
       (active_requests self) = (Ok new_requests, active) ->
     preprocess_requests new_requests (set_active_requests active self)
     = (Ok (Some batch), self1) ->
     prefill_batch batch (rolling_batch self1) = (Raise e, engine) ->
     exists response self',
       inference input_data params self = (Ok response, self') /\
       active_requests self' = map fail active).
Proof.
  rewrite inference_cases. split_and!.
  - destruct (inference_body input_data params self) as [[response|e] s];
      eauto.
  - destruct (inference_body input_data params self) as [[response|e] s];
      [done|].
    eexists _, _. split; [done|]. simpl. split; [done|].
    split; [|by rewrite length_map].
    apply Forall_forall. intros request Hin.
    apply list_elem_of_fmap in Hin as (request0 & -> & _). done.
  - intros new_requests active batch self1 e engine Hnew Hpre Hprefill.
    destruct (inference_body_prefill_raises _ _ _ _ _ _ _ _ _
                Hnew Hpre Hprefill) as [-> Hactive].
    eexists _, _. split; [done|]. simpl. by rewrite Hactive.
Qed.

End Inference.

(** ** More on preprocess_requests: failures, frame, stopping parameters *)

Section PreprocessMore.

Context {text_int : IntOfStr} {E F : Type}.

Implicit Types (r : ActiveRequest F) (q : lmi_dist.Request).
Implicit Types (requests : list (ActiveRequest F)).
Implicit Types (self : DeepSpeedRollingBatch E F).

Lemma native_request_raises r e :
  Py.int (Py.get (parameters r) "seed" (Int 0)) = Raise e ->
  native_request r = Raise e.
Proof.
  intros Hseed. unfold native_request, next_token_chooser_parameters.
  by rewrite Hseed.
Qed.

(** The loop stops at the first request it cannot convert. *)
Lemma preprocess_loop_raises (before after : list (ActiveRequest F)) r e
    (acc : list lmi_dist.Request) :
  Forall seed_ok before ->
  native_request r = Raise e ->
  preprocess_loop (before ++ r :: after) acc = Raise e.
Proof.
  intros Hbefore Hr. revert acc.
  induction Hbefore as [|r0 before' Hr0 _ IH]; intros acc; simpl.
  - by rewrite Hr.
  - apply native_request_seed_ok in Hr0 as [q0 Hq0]. by rewrite Hq0.
Qed.

Lemma preprocess_requests_raises (before after : list (ActiveRequest F)) r e
    self :
  Forall seed_ok before ->
  Py.int (Py.get (parameters r) "seed" (Int 0)) = Raise e ->
  preprocess_requests (before ++ r :: after) self = (Raise e, self).
Proof.
  intros Hbefore Hseed. unfold preprocess_requests.
  by rewrite (preprocess_loop_raises before after r e [] Hbefore
                (native_request_raises r e Hseed)).
Qed.

(** X1: whatever its outcome, a call of [preprocess_requests] leaves the
    engine, the active requests, the output formatter, [error_requests]
    and the history of calls as they were; of the adapter it changes the
    counter only, by 0 or by 1. *)
Theorem preprocess_requests_changes_counter_only requests self :
  rolling_batch (snd (preprocess_requests requests self))
  = rolling_batch self /\
  active_requests (snd (preprocess_requests requests self))
  = active_requests self /\
  output_formatter (snd (preprocess_requests requests self))
  = output_formatter self /\
  error_requests (snd (preprocess_requests requests self))
  = error_requests self /\
  calls (snd (preprocess_requests requests self)) = calls self /\
  (batch_id_counter (snd (preprocess_requests requests self))
   = batch_id_counter self \/
   batch_id_counter (snd (preprocess_requests requests self))
   = batch_id_counter self + 1).
Proof.
  pose proof (preprocess_requests_cases requests self) as H.
  destruct (preprocess_requests requests self) as [[[batch|]|e] self'];
    simpl.
  - destruct H as (_ & _ & _ & _ & ->). simpl. split_and!; auto.
  - destruct H as [_ ->]. split_and!; auto.
  - destruct H as [_ ->]. split_and!; auto.
Qed.

(** X2: when the first request whose seed [int] refuses comes after
    requests with acceptable seeds, [preprocess_requests] raises the
    exception of that [int] call, whatever follows in the list, and leaves
    the adapter exactly as it was: no batch is made of the requests before
    it and the counter does not move. *)
Theorem preprocess_requests_first_bad_seed requests
    (before after : list (ActiveRequest F)) r e self :
  requests = before ++ r :: after ->
  Forall seed_ok before ->
  Py.int (Py.get (parameters r) "seed" (Int 0)) = Raise e ->
  preprocess_requests requests self = (Raise e, self).
Proof. intros ->. apply preprocess_requests_raises. Qed.

(** X3: a seed that is present with the value [None] is not replaced by
    the default: with acceptable seeds before it, [preprocess_requests]
    raises [TypeError] and leaves the adapter as it was. *)
Theorem preprocess_requests_null_seed requests
    (before after : list (ActiveRequest F)) r self :
  requests = before ++ r :: after ->
  Forall seed_ok before ->
  parameters r !! "seed" = Some None_ ->
  preprocess_requests requests self = (Raise TypeError, self).
Proof.
  intros -> Hbefore Hseed. apply preprocess_requests_raises; [done|].
  by rewrite get_lookup, Hseed.
Qed.

(** X4: in a call of [preprocess_requests] on requests whose seed, when
    given, is one [int] accepts, the stopping parameters of each engine
    request are the values of the request's parameter mapping at
    "stop_sequences" and "max_new_tokens" when present, passed on as they
    are, and the empty list and 30 when absent. *)
Theorem preprocess_requests_stopping_parameters requests self :
  requests <> [] -> Forall seed_ok requests ->
  exists batch self',
    preprocess_requests requests self = (Ok (Some batch), self') /\
    Forall2 (fun r q =>
      let param := parameters r in
      let stop := lmi_dist.stopping_parameters q in
      match param !! "stop_sequences" with
      | Some v => lmi_dist.stop_sequences stop = v
      | None => lmi_dist.stop_sequences stop = List []
      end /\
      match param !! "max_new_tokens" with
      | Some v => lmi_dist.max_new_tokens stop = v
      | None => lmi_dist.max_new_tokens stop = Int 30
      end)
    requests (lmi_dist.requests batch).
Proof.
  intros Hne Hok.
  destruct (preprocess_requests_batch requests self Hne Hok)
    as (made & Hmade & Hcall).
  eexists _, _. split; [exact Hcall|]. simpl.
  eapply Forall2_impl; [exact Hmade|].
  intros r q Hq. apply native_request_fields in Hq.
  destruct Hq as (_ & _ & _ & -> & _).
  unfold stopping_criteria_parameters. simpl. rewrite !get_lookup.
  split.
  - by destruct (parameters r !! "stop_sequences").
  - by destruct (parameters r !! "max_new_tokens").
Qed.

(** X5: in any sequence of calls of [preprocess_requests], whatever the
    requests and also when some calls raise, the batches made have the
    ids c, c+1, c+2, ... in the order of the calls, where c is the counter
    before the first call, and the counter at the end is c plus the number
    of batches made: a call that raises uses up no id, and no id is given
    twice. *)
Theorem batch_ids_consecutive (calls_ : list (list (ActiveRequest F))) self :
  batch_ids (fst (preprocess_calls calls_ self))
  = map (fun k => batch_id_counter self + Z.of_nat k)
      (seq 0 (length (batch_ids (fst (preprocess_calls calls_ self))))) /\
  batch_id_counter (snd (preprocess_calls calls_ self))
  = batch_id_counter self
    + Z.of_nat (length (batch_ids (fst (preprocess_calls calls_ self)))) /\
  NoDup (batch_ids (fst (preprocess_calls calls_ self))).
Proof.
  assert (batch_ids (fst (preprocess_calls calls_ self))
          = map (fun k => batch_id_counter self + Z.of_nat k)
              (seq 0 (length (batch_ids (fst (preprocess_calls calls_ self)))))
          /\ batch_id_counter (snd (preprocess_calls calls_ self))
             = batch_id_counter self
               + Z.of_nat
                   (length (batch_ids (fst (preprocess_calls calls_ self)))))
    as [Hids Hcount].
  { revert self. induction calls_ as [|requests rest IH]; intros self.
    - simpl. split; [done|lia].
    - simpl.
      pose proof (preprocess_requests_cases requests self) as H.
      destruct (preprocess_requests requests self) as [[[batch|]|e] self1].
      + destruct H as (_ & _ & Hid & _ & ->).
        specialize (IH (set_batch_id_counter (batch_id_counter self + 1) self)).
        destruct (preprocess_calls rest _) as [outs self2]. simpl in *.
        destruct IH as [IHids IHcount]. split.
        * rewrite Hid. f_equal.
          -- lia.
          -- rewrite IHids at 1. rewrite <- seq_shift, map_map.
             apply map_ext. intros k. lia.
        * rewrite IHcount. lia.
      + destruct H as [_ ->]. specialize (IH self).
        destruct (preprocess_calls rest self) as [outs self2]. done.
      + destruct H as [_ ->]. specialize (IH self).
        destruct (preprocess_calls rest self) as [outs self2]. done. }
  split_and!; [done|done|].
  rewrite Hids. apply NoDup_fmap_2.
  - intros j k Hjk. lia.
  - apply NoDup_ListNoDup, seq_NoDup.
Qed.

End PreprocessMore.

(** ** More on reset and _prefill_and_decode *)

Section DispatchMore.

Context {text_int : IntOfStr} {E F : Type} `{!DeepSpeedRollingBatchGeneration E}.

Implicit Types (request : ActiveRequest F) (g : Generation).
Implicit Types (generations : list Generation) (fmt : F).
Implicit Types (self : DeepSpeedRollingBatch E F).

(** A cycle changes neither the counter nor the output formatter, and
    leaves the engine as its one engine operation left it. *)
Lemma prefill_and_decode_frame (new_batch : option Batch) self :
  batch_id_counter (snd (_prefill_and_decode new_batch self))
  = batch_id_counter self /\
  output_formatter (snd (_prefill_and_decode new_batch self))
  = output_formatter self /\
  rolling_batch (snd (_prefill_and_decode new_batch self))
  = match new_batch with
    | Some batch => snd (prefill_batch batch (rolling_batch self))
    | None => snd (generate_token (rolling_batch self))
    end.
Proof.
  cbv [_prefill_and_decode bind cycle_generations on_engine dispatch].
  destruct new_batch as [batch|].
  - destruct (prefill_batch batch (rolling_batch self))
      as [[[generations ids]|e] engine]; simpl; [|done].
    by destruct (for_active_requests _ _ _).
  - destruct (generate_token (rolling_batch self))
      as [[generations|e] engine]; simpl; [|done].
    by destruct (for_active_requests _ _ _).
Qed.

(** The token of a request is that of the generations with its id. *)
Lemma next_token_filter (P : Generation -> Prop)
    `{!forall g, Decision (P g)} generations fmt request :
  (forall g, lmi_dist.request_id g = id request -> P g) ->
  next_token (filter P generations) fmt request
  = next_token generations fmt request.
Proof.
  intros HP. unfold next_token.
  replace (filter (fun g => lmi_dist.request_id g = id request)
             (filter P generations))
    with (filter (fun g => lmi_dist.request_id g = id request) generations);
    [done|].
  induction generations as [|g rest IH]; [done|].
  destruct (decide (lmi_dist.request_id g = id request)) as [Hg|Hg].
  - rewrite (filter_cons_True P) by auto.
    rewrite !filter_cons_True by done. by rewrite IH.
  - rewrite (filter_cons_False _ g rest) by done.
    destruct (decide (P g)).
    + rewrite (filter_cons_True P) by done.
      by rewrite filter_cons_False.
    + by rewrite (filter_cons_False P).
Qed.

(** Generations that are for none of the ids in [known] do not count for
    requests whose id is in [known]. *)
Lemma for_active_requests_ext generations generations' fmt
    (known active : list (ActiveRequest F)) :
  generations'
  = filter (fun g => lmi_dist.request_id g ∈ map id known) generations ->
  active ⊆ known ->
  for_active_requests generations fmt active
  = for_active_requests generations' fmt active.
Proof.
  intros -> Hsub. induction active as [|request rest IH]; [done|].
  simpl. rewrite IH by set_solver.
  rewrite (next_token_filter _ generations fmt request); [done|].
  intros g ->. apply list_elem_of_fmap_2. set_solver.
Qed.

(** X6: [reset] does not raise, sets the counter to 0 and clears the
    engine's batch table; the first batch made after it, from requests
    whose seed [int] accepts, has the id 0 whatever the counter was. *)
Theorem reset_restarts_batch_ids self (requests : list (ActiveRequest F)) :
  requests <> [] -> Forall seed_ok requests ->
  fst (reset self) = Ok tt /\
  rolling_batch (snd (reset self)) = rolling_batch_clear (rolling_batch self) /\
  exists batch self',
    preprocess_requests requests (snd (reset self))
    = (Ok (Some batch), self') /\
    lmi_dist.batch_id batch = 0 /\
    batch_id_counter self' = 1.
Proof.
  intros Hne Hok. split; [done|]. split; [done|].
  destruct (preprocess_requests_batch requests (snd (reset self)) Hne Hok)
    as (made & _ & Hcall).
  eexists _, _. split; [exact Hcall|]. done.
Qed.

(** X7: when the engine operation of the cycle raises, the prefill for a
    new batch and the decode step otherwise, [_prefill_and_decode] raises
    the same exception without giving a token to any request: the active
    requests, the history of calls, [error_requests] and the counter are
    as before, and the engine is as the failed operation left it. *)
Theorem prefill_and_decode_engine_raises (new_batch : option Batch) self
    e (engine : E) :
  match new_batch with
  | Some batch => prefill_batch batch (rolling_batch self) = (Raise e, engine)
  | None => generate_token (rolling_batch self) = (Raise e, engine)
  end ->
  exists self',
    _prefill_and_decode new_batch self = (Raise e, self') /\
    rolling_batch self' = engine /\
    active_requests self' = active_requests self /\
    calls self' = calls self /\
    error_requests self' = error_requests self /\
    batch_id_counter self' = batch_id_counter self.
Proof.
  intros Hraise. exists (set_rolling_batch engine self).
  split; [|done].
  cbv [_prefill_and_decode bind cycle_generations on_engine].
  destruct new_batch as [batch|]; by rewrite Hraise.
Qed.

(** X8: a cycle runs exactly one engine operation: with a new batch the
    engine is left as its prefill left it, and no decode step is taken in
    that cycle; without one, as the decode step left it.  This holds
    whatever the operation returns or raises, and the cycle changes
    neither the counter nor the output formatter. *)
Theorem prefill_and_decode_one_engine_operation (new_batch : option Batch)
    self :
  rolling_batch (snd (_prefill_and_decode new_batch self))
  = match new_batch with
    | Some batch => snd (prefill_batch batch (rolling_batch self))
    | None => snd (generate_token (rolling_batch self))
    end /\
  batch_id_counter (snd (_prefill_and_decode new_batch self))
  = batch_id_counter self /\
  output_formatter (snd (_prefill_and_decode new_batch self))
  = output_formatter self.
Proof.
  destruct (prefill_and_decode_frame new_batch self) as (Hc & Hf & He).
  done.
Qed.

(** X9: generations whose request id is the id of no active request have
    no effect and raise nothing: dispatching a list of generations is the
    same as dispatching those of them that are for an active request. *)
Theorem dispatch_ignores_unknown_generations generations self :
  dispatch generations self
  = dispatch
      (filter (fun g => lmi_dist.request_id g ∈ map id (active_requests self))
         generations)
      self.
Proof.
  unfold dispatch.
  by rewrite (for_active_requests_ext generations
                (filter (fun g => lmi_dist.request_id g
                                  ∈ map id (active_requests self)) generations)
                (output_formatter self) (active_requests self)
                (active_requests self)).
Qed.

End DispatchMore.

(** ** More on inference: the paths of its body *)

Section InferenceMore.

Context {text_int : IntOfStr} {E F Response : Type}.
Context `{!DeepSpeedRollingBatchGeneration E} `{!RollingBatch F Response}.

Implicit Types (self : DeepSpeedRollingBatch E F).
Implicit Types (input_data : list string) (params : list dict).

(** X10: a tick with no new request and no active request does not call
    the engine: the body of [inference] only post-processes the results,
    and the engine, the counter, [error_requests] and the history of
    calls are as before. *)
Theorem inference_body_idle input_data params self :
  get_new_requests input_data params (length input_data)
    (active_requests self) = (Ok [], []) ->
  inference_body input_data params self
  = (fst (postprocess_results []),
     set_active_requests (snd (postprocess_results [])) self) /\
  rolling_batch (snd (inference_body input_data params self))
  = rolling_batch self /\
  batch_id_counter (snd (inference_body input_data params self))
  = batch_id_counter self /\
  error_requests (snd (inference_body input_data params self))
  = error_requests self /\
  calls (snd (inference_body input_data params self)) = calls self.
Proof.
  intros Hnew.
  assert (inference_body input_data params self
          = (fst (postprocess_results []),
             set_active_requests (snd (postprocess_results [])) self))
    as Hbody.
  { cbv [inference_body bind on_base]. rewrite Hnew. simpl.
    by destruct (postprocess_results []). }
  by rewrite Hbody.
Qed.

(** X11: when a new request has a seed [int] refuses, the requests before
    it having acceptable ones, the body of [inference] raises the
    exception of that [int] call before the engine is called: the engine,
    the counter, [error_requests] and the history of calls are as before,
    while the active requests are those the base class left, the request
    with the bad seed among them if the base class put it there. *)
Theorem inference_body_bad_seed input_data params self
    (before after active : list (ActiveRequest F)) r e :
  get_new_requests input_data params (length input_data)
    (active_requests self) = (Ok (before ++ r :: after), active) ->
  Forall seed_ok before ->
  Py.int (Py.get (parameters r) "seed" (Int 0)) = Raise e ->
  inference_body input_data params self
  = (Raise e, set_active_requests active self).
Proof.
  intros Hnew Hbefore Hseed.
  cbv [inference_body bind on_base]. rewrite Hnew.
  by rewrite (preprocess_requests_raises before after r e _ Hbefore Hseed).
Qed.

(** X12: whatever the inputs and whatever happens, a run of the body of
    [inference] leaves the counter as it was or one higher: it never
    lowers it and never makes more than one batch. *)
Theorem inference_body_counter input_data params self :
  batch_id_counter self
  <= batch_id_counter (snd (inference_body input_data params self))
  <= batch_id_counter self + 1.
Proof.
  cbv [inference_body bind on_base].
  destruct (get_new_requests input_data params (length input_data)
              (active_requests self)) as [[new_requests|e] active];
    [|simpl; lia].
  pose proof (preprocess_requests_cases new_requests
                (set_active_requests active self)) as Hcases.
  destruct (preprocess_requests new_requests
              (set_active_requests active self)) as [[new_batch|e] self1].
  2: { destruct Hcases as [_ ->]. simpl. lia. }
  assert (batch_id_counter self <= batch_id_counter self1
          <= batch_id_counter self + 1) as Hself1.
  { destruct new_batch as [batch|].
    - destruct Hcases as (_ & _ & _ & _ & ->). simpl. lia.
    - destruct Hcases as [_ ->]. simpl. lia. }
  destruct (bool_decide (new_batch <> None)
            || bool_decide (0 < length (active_requests self1))%nat).
  - destruct (prefill_and_decode_frame new_batch self1) as (Hc & _ & _).
    destruct (_prefill_and_decode new_batch self1) as [[[]|e] self2];
      simpl in *.
    + destruct (postprocess_results (active_requests self2)). simpl. lia.
    + lia.
  - simpl. destruct (postprocess_results (active_requests self1)).
    simpl. lia.
Qed.

(** X13: a tick with no new request while requests are active takes a
    decode step: the body of [inference] is [_prefill_and_decode] without
    a batch, on the active requests the base class left, followed by the
    post-processing; no batch is made. *)
Theorem inference_body_decode_only input_data params self
    (active : list (ActiveRequest F)) :
  get_new_requests input_data params (length input_data)
    (active_requests self) = (Ok [], active) ->
  active <> [] ->
  inference_body input_data params self
  = bind (_prefill_and_decode None) (fun _ => on_base postprocess_results)
      (set_active_requests active self).
Proof.
  intros Hnew Hactive.
  cbv [inference_body bind on_base]. rewrite Hnew. simpl.
  rewrite (bool_decide_eq_true_2 (0 < length active)%nat);
    [|destruct active; [done|simpl; lia]].
  done.
Qed.

(** X14: a tick with new requests, whose seeds [int] accepts, prefills
    them: the body of [inference] is [_prefill_and_decode] on a batch that
    has the counter as id and holds the engine requests of the new
    requests only, in their order, followed by the post-processing; the
    counter is one higher. *)
Theorem inference_body_prefill input_data params self
    (new_requests active : list (ActiveRequest F)) :
  get_new_requests input_data params (length input_data)
    (active_requests self) = (Ok new_requests, active) ->
  new_requests <> [] -> Forall seed_ok new_requests ->
  exists made,
    Forall2 (fun r q => native_request r = Ok q) new_requests made /\
    map lmi_dist.id made = map id new_requests /\
    inference_body input_data params self
    = bind
        (_prefill_and_decode
           (Some {| lmi_dist.batch_id := batch_id_counter self;
                    lmi_dist.requests := made;
                    lmi_dist.size := length new_requests |}))
        (fun _ => on_base postprocess_results)
        (set_batch_id_counter (batch_id_counter self + 1)
           (set_active_requests active self)).
Proof.
  intros Hnew Hne Hok.
  destruct (preprocess_requests_batch new_requests
              (set_active_requests active self) Hne Hok)
    as (made & Hmade & Hcall).
  exists made. split; [done|]. split.
  - clear -Hmade. induction Hmade as [|r q rest made' Hq _ IH]; [done|].
    simpl. apply native_request_fields in Hq as (-> & _). by rewrite IH.
  - cbv [inference_body bind on_base]. rewrite Hnew, Hcall.
    rewrite bool_decide_eq_true_2 by done. simpl.
    by rewrite (Forall2_length _ _ _ Hmade).
Qed.

End InferenceMore.

(** ** The theorems at the sample data *)

#[local] Existing Instance no_text.

Lemma sample_requests_seed_ok : Forall seed_ok sample_requests.
Proof.
  unfold sample_requests. simpl.
  constructor; [by exists 0|].
  constructor; [by exists 42|].
  constructor.
Defined.


(** A call with one request, whose seed is [None]: the list is not empty,
    yet the call raises, makes no batch and leaves the counter at 0. *)
Lemma batch_ids_increase_by_one_counterexample :
  [null_seed_request] <> [] /\
  preprocess_requests [null_seed_request] (init sample_engine tt)
  = (Raise TypeError, init sample_engine tt) /\
  ~ exists batch self',
      preprocess_requests [null_seed_request] (init sample_engine tt)
      = (Ok (Some batch), self') /\
      lmi_dist.batch_id batch = batch_id_counter (init sample_engine tt) /\
      batch_id_counter self'
      = batch_id_counter (init sample_engine tt) + 1.
Proof.
  split; [discriminate|]. split; [reflexivity|].
  intros (batch & self' & Hcall & _). discriminate Hcall.
Qed.




Lemma batch_ids_increase_by_one_witness :
  Forall (Forall seed_ok) [sample_requests; []; sample_requests] /\
  batch_ids
    (fst (preprocess_calls [sample_requests; []; sample_requests]
            (init sample_engine tt)))
  = [0; 1].
Proof.
  assert (Forall (Forall seed_ok) [sample_requests; []; sample_requests])
    as Hok.
  { constructor; [exact sample_requests_seed_ok|].
    constructor; [constructor|].
    constructor; [exact sample_requests_seed_ok|constructor]. }
  split; [exact Hok|].
  destruct (batch_ids_increase_by_one [sample_requests; []; sample_requests]
              (init sample_engine tt) Hok) as (_ & Hids & _).
  exact Hids.
Defined.

Lemma no_generation_gives_empty_token_witness :
  exists self' request',
    _prefill_and_decode None (sample_adapter sample_engine) = (Ok tt, self') /\
    active_requests self' !! 1%nat = Some request' /\
    output request'
    = [{| text := ""; formatter := tt; last_token := false |}].
Proof.
  destruct (no_generation_gives_empty_token None
              (sample_adapter sample_engine)
              [sample_generation; sample_duplicate]
              (sample_adapter sample_engine) 1
              {| id := 1; input_text := "b"; parameters := sample_param;
                 output := []; failed := false |})
    as (self' & request' & Hcall & Hi & _ & _ & Hout).
  - reflexivity.
  - reflexivity.
  - repeat constructor; discriminate.
  - exists self', request'. split; [exact Hcall|]. split; [exact Hi|].
    exact Hout.
Defined.

Lemma matching_generation_gives_token_witness :
  exists self' request' token,
    _prefill_and_decode None (sample_adapter sample_engine) = (Ok tt, self') /\
    active_requests self' !! 0%nat = Some request' /\
    output request' = [token] /\
    text token = "hi" /\
    last_token token <> true.
Proof.
  destruct (matching_generation_gives_token None
              (sample_adapter sample_engine)
              [sample_generation; sample_duplicate]
              (sample_adapter sample_engine) 0
              {| id := 0; input_text := "a"; parameters := ∅;
                 output := []; failed := false |}
              [] sample_generation [sample_duplicate])
    as (self' & request' & token & Hcall & Hi & Hout & _ & Htext & Hlast).
  - reflexivity.
  - reflexivity.
  - reflexivity.
  - constructor.
  - reflexivity.
  - exists self', request', token.
    split; [exact Hcall|]. split; [exact Hi|]. split; [exact Hout|].
    split; [exact (Htext eq_refl)|].
    intros Htrue. apply Hlast in Htrue. by apply Htrue.
Defined.

Lemma first_matching_generation_is_used_witness :
  exists self' request',
    _prefill_and_decode None (sample_adapter sample_engine) = (Ok tt, self') /\
    active_requests self' !! 0%nat = Some request' /\
    output request'
    = [{| text := "hi"; formatter := tt; last_token := false |}].
Proof.
  destruct (first_matching_generation_is_used None
              (sample_adapter sample_engine)
              [sample_generation; sample_duplicate]
              (sample_adapter sample_engine) 0 0 1
              {| id := 0; input_text := "a"; parameters := ∅;
                 output := []; failed := false |}
              sample_generation sample_duplicate)
    as (self' & request' & Hcall & Hi & Hout).
  - reflexivity.
  - reflexivity.
  - reflexivity.
  - reflexivity.
  - reflexivity.
  - reflexivity.
  - lia.
  - intros k g Hk. lia.
  - exists self', request'. split; [exact Hcall|]. split; [exact Hi|].
    exact Hout.
Defined.

Lemma one_set_next_token_per_active_request_witness :
  exists self' made,
    _prefill_and_decode None (sample_adapter sample_engine) = (Ok tt, self') /\
    calls self' = made /\
    length made = 2%nat.
Proof.
  destruct (one_set_next_token_per_active_request None
              (sample_adapter sample_engine)
              [sample_generation; sample_duplicate]
              (sample_adapter sample_engine))
    as (self' & made & Hcall & Hcalls & Hlen & _).
  - reflexivity.
  - exists self', made. split; [exact Hcall|]. split; [exact Hcalls|].
    exact Hlen.
Defined.

Lemma inference_stops_on_any_exception_witness :
  exists response self',
    inference ["a"; "b"; "c"] [∅; sample_param; ∅]
      (sample_adapter failing_engine)
    = (Ok response, self') /\
    map failed (active_requests self') = [true; true; true].
Proof.
  destruct (inference_stops_on_any_exception ["a"; "b"; "c"]
              [∅; sample_param; ∅] (sample_adapter failing_engine))
    as (_ & _ & Hprefill).
  edestruct Hprefill as (response & self' & Hcall & Hactive).
  - reflexivity.
  - reflexivity.
  - reflexivity.
  - exists response, self'. split; [exact Hcall|]. by rewrite Hactive.
Defined.

(** ** Examples *)

(** Two new requests with default parameters, one generation for the
    first: it gets the token, the second gets the empty token, and both
    stay open. *)
Example inference_one_generation :
  fst (inference ["a"; "b"] [∅; ∅]
         (init {| on_prefill := Ok ([sample_generation], []);
                  on_decode := Ok [] |} tt))
  = Ok [(0, ["hi"], false); (1, [""], false)].
Proof. reflexivity. Qed.

(** A seed that [int] refuses, here NaN: the call raises and the counter
    stays. *)
Example preprocess_requests_bad_seed :
  preprocess_requests
    [{| id := 0; input_text := "a";
        parameters := <["seed" := Float S754_nan]> ∅;
        output := []; failed := false |}]
    (init sample_engine tt)
  = (Raise ValueError, init sample_engine tt).
Proof. reflexivity. Qed.

(** A [truncate] given as [None] sets no attribute. *)
Example preprocess_requests_truncate_None :
  native_request
    {| id := 0; input_text := "a";
       parameters := <["truncate" := None_]> ∅;
       output := ([] : list (NextToken unit)); failed := false |}
  = Ok {| lmi_dist.id := 0;
          lmi_dist.inputs := "a";
          lmi_dist.parameters :=
            {| lmi_dist.temperature := Float float_1_0;
               lmi_dist.repetition_penalty := Float float_1_0;
               lmi_dist.top_k := Int 0;
               lmi_dist.top_p := Float float_1_0;
               lmi_dist.typical_p := Float float_1_0;
               lmi_dist.do_sample := Bool false;
               lmi_dist.seed := 0 |};
          lmi_dist.stopping_parameters :=
            {| lmi_dist.stop_sequences := List [];
               lmi_dist.max_new_tokens := Int 30 |};
          lmi_dist.truncate := None |}.
Proof. reflexivity. Qed.

(** ** The further theorems at the sample data *)

Lemma preprocess_requests_first_bad_seed_witness :
  Forall seed_ok sample_requests /\
  Py.int (Py.get (parameters bad_seed_request) "seed" (Int 0))
  = Raise ValueError /\
  preprocess_requests (sample_requests ++ [bad_seed_request])
    (init sample_engine tt)
  = (Raise ValueError, init sample_engine tt).
Proof.
  split; [exact sample_requests_seed_ok|]. split; [reflexivity|].
  apply (preprocess_requests_first_bad_seed _ sample_requests []
           bad_seed_request ValueError).
  - reflexivity.
  - exact sample_requests_seed_ok.
  - reflexivity.
Defined.

Lemma preprocess_requests_null_seed_witness :
  Forall seed_ok sample_requests /\
  parameters null_seed_request !! "seed" = Some None_ /\
  preprocess_requests (sample_requests ++ [null_seed_request])
    (init sample_engine tt)
  = (Raise TypeError, init sample_engine tt).
Proof.
  split; [exact sample_requests_seed_ok|]. split; [reflexivity|].
  apply (preprocess_requests_null_seed _ sample_requests []
           null_seed_request).
  - reflexivity.
  - exact sample_requests_seed_ok.
  - reflexivity.
Defined.

Lemma preprocess_requests_stopping_parameters_witness :
  sample_requests <> [] /\
  Forall seed_ok sample_requests /\
  exists batch self',
    preprocess_requests sample_requests (init sample_engine tt)
    = (Ok (Some batch), self') /\
    length (lmi_dist.requests batch) = 2%nat.
Proof.
  assert (sample_requests <> []) as Hne by discriminate.
  split; [exact Hne|]. split; [exact sample_requests_seed_ok|].
  destruct (preprocess_requests_stopping_parameters sample_requests
              (init sample_engine tt) Hne sample_requests_seed_ok)
    as (batch & self' & Hcall & Hall).
  exists batch, self'. split; [exact Hcall|].
  apply Forall2_length in Hall. by rewrite <- Hall.
Defined.

Lemma reset_restarts_batch_ids_witness :
  sample_requests <> [] /\
  Forall seed_ok sample_requests /\
  exists batch self',
    preprocess_requests sample_requests
      (snd (reset (set_batch_id_counter 5 (sample_adapter sample_engine))))
    = (Ok (Some batch), self') /\
    lmi_dist.batch_id batch = 0.
Proof.
  assert (sample_requests <> []) as Hne by discriminate.
  split; [exact Hne|]. split; [exact sample_requests_seed_ok|].
  destruct (reset_restarts_batch_ids
              (set_batch_id_counter 5 (sample_adapter sample_engine))
              sample_requests Hne sample_requests_seed_ok)
    as (_ & _ & batch & self' & Hcall & Hid & _).
  exists batch, self'. split; [exact Hcall|exact Hid].
Defined.

Lemma prefill_and_decode_engine_raises_witness :
  generate_token (rolling_batch (sample_adapter stalled_engine))
  = (Raise (Exception "RuntimeError"), stalled_engine) /\
  exists self',
    _prefill_and_decode None (sample_adapter stalled_engine)
    = (Raise (Exception "RuntimeError"), self') /\
    active_requests self' = sample_requests.
Proof.
  split; [reflexivity|].
  destruct (prefill_and_decode_engine_raises None
              (sample_adapter stalled_engine) (Exception "RuntimeError")
              stalled_engine)
    as (self' & Hcall & _ & Hactive & _).
  - reflexivity.
  - exists self'. split; [exact Hcall|exact Hactive].
Defined.

Lemma inference_body_idle_witness :
  get_new_requests [] [] 0 (active_requests (init sample_engine tt))
  = (Ok [], []) /\
  inference_body [] [] (init sample_engine tt)
  = (Ok [], init sample_engine tt).
Proof.
  split; [reflexivity|].
  destruct (inference_body_idle [] [] (init sample_engine tt))
    as (Hbody & _).
  - reflexivity.
  - exact Hbody.
Defined.

Lemma inference_body_bad_seed_witness :
  inference_body ["a"; "b"; "c"]
    [∅; sample_param; <["seed" := Float S754_nan]> ∅] (init sample_engine tt)
  = (Raise ValueError,
     set_active_requests (sample_requests ++ [bad_seed_request])
       (init sample_engine tt)).
Proof.
  apply (inference_body_bad_seed _ _ _ sample_requests []
           (sample_requests ++ [bad_seed_request]) bad_seed_request).
  - reflexivity.
  - exact sample_requests_seed_ok.
  - reflexivity.
Defined.

Lemma inference_body_decode_only_witness :
  sample_requests <> [] /\
  inference_body ["a"; "b"] [∅; sample_param] (sample_adapter sample_engine)
  = bind (_prefill_and_decode None) (fun _ => on_base postprocess_results)
      (set_active_requests sample_requests (sample_adapter sample_engine)).
Proof.
  assert (sample_requests <> []) as Hne by discriminate.
  split; [exact Hne|].
  apply (inference_body_decode_only ["a"; "b"] [∅; sample_param]
           (sample_adapter sample_engine) sample_requests).
  - reflexivity.
  - exact Hne.
Defined.

Lemma inference_body_prefill_witness :
  sample_requests <> [] /\
  Forall seed_ok sample_requests /\
  exists made,
    map lmi_dist.id made = [0; 1] /\
    batch_id_counter
      (snd (inference_body ["a"; "b"] [∅; sample_param]
              (init sample_engine tt)))
    = 1.
Proof.
  assert (sample_requests <> []) as Hne by discriminate.
  split; [exact Hne|]. split; [exact sample_requests_seed_ok|].
  destruct (inference_body_prefill ["a"; "b"] [∅; sample_param]
              (init sample_engine tt) sample_requests sample_requests)
    as (made & _ & Hids & Hbody).
  - reflexivity.
  - exact Hne.
  - exact sample_requests_seed_ok.
  - exists made. split; [exact Hids|]. reflexivity.
Defined.
